(** * The HTML document shell of the documentation site (src/html.jsx)

    The module has two parts: top-level code that, in a production build,
    tries to load the text of [../public/styles.css] into the module variable
    [inlinedStyles] (logging and swallowing a failure), and the component
    [HTML] whose [render] method builds the React element tree of the page
    from [this.props] and that variable.

    The embedding keeps both: the top-level code and [render] are written in
    a small monad of effects (a store holding [inlinedStyles] and the console,
    and JavaScript's abrupt completion by [throw]); the value [render]
    returns is a React element tree. *)

From Stdlib Require Import Ascii String List Permutation PeanoNat.
Import ListNotations.
Local Open Scope char_scope.
Local Open Scope string_scope.
Local Open Scope list_scope.

(** ** React element trees *)

(** The value of a JSX attribute: a string literal, or the object
    [{ __html: s }] handed to [dangerouslySetInnerHTML]. *)
Inductive PropValue : Type :=
| Str (s : string)
| InnerHTML (__html : string).

(** What a JSX expression evaluates to in this file.  [Fragment] is the type
    of the values the hosting framework passes as [headComponents] and
    [postBodyComponents]: the template places them with [{...}] and never
    looks inside.  [Undefined] is the value of a [let] variable that was
    never assigned; React renders nothing for it. *)
#[warnings="-register-all"]
Inductive ReactNode (Fragment : Type) : Type :=
| Undefined
| Supplied (f : Fragment)
| Element (type : string) (props : list (string * PropValue))
          (children : list (ReactNode Fragment)).

Arguments Undefined {Fragment}.
Arguments Supplied {Fragment} f.
Arguments Element {Fragment} type props children.

(** [this.props] of the component. *)
Record Props (Fragment : Type) : Type := mkProps {
  headComponents : Fragment;
  body : string;
  postBodyComponents : Fragment
}.

Arguments mkProps {Fragment} _ _ _.
Arguments headComponents {Fragment} _.
Arguments body {Fragment} _.
Arguments postBodyComponents {Fragment} _.

(** ** Effects *)

(** The state the module can touch: its variable [inlinedStyles] and the
    lines written to the console. *)
Record Store (Exn : Type) : Type := mkStore {
  inlinedStyles : string;
  console : list Exn
}.

Arguments mkStore {Exn} _ _.
Arguments inlinedStyles {Exn} _.
Arguments console {Exn} _.

(** How a piece of JavaScript ends: normally with a value, or abruptly with
    a thrown exception. *)
Inductive Completion (Exn A : Type) : Type :=
| Normal (a : A)
| Throw (e : Exn).

Arguments Normal {Exn A} a.
Arguments Throw {Exn A} e.

(** What [require('!raw-loader!../public/styles.css')] finds: the text of the
    stylesheet, or a failure with the exception the loader raises. *)
Inductive Asset (Exn : Type) : Type :=
| Readable (text : string)
| Unreadable (e : Exn).

Arguments Readable {Exn} text.
Arguments Unreadable {Exn} e.

Module Eff.

Definition t (Exn A : Type) : Type :=
  Store Exn -> Completion Exn A * Store Exn.

Definition ret {Exn A} (a : A) : t Exn A :=
  fun st => (Normal a, st).

(** Sequencing: the store written before a throw is kept, the rest of the
    sequence is skipped. *)
Definition bind {Exn A B} (m : t Exn A) (k : A -> t Exn B) : t Exn B :=
  fun st =>
    match m st with
    | (Normal a, st') => k a st'
    | (Throw e, st') => (Throw e, st')
    end.

Definition throw {Exn A} (e : Exn) : t Exn A :=
  fun st => (Throw e, st).

(** [try { body } catch (e) { handler }] *)
Definition try_catch {Exn A} (body : t Exn A) (handler : Exn -> t Exn A)
  : t Exn A :=
  fun st =>
    match body st with
    | (Normal a, st') => (Normal a, st')
    | (Throw e, st') => handler e st'
    end.

End Eff.

Declare Scope eff_scope.
Delimit Scope eff_scope with eff.
Notation "x <- m ;; k" := (Eff.bind m (fun x => k))
  (at level 61, m at next level, right associativity) : eff_scope.
Notation "m ;; k" := (Eff.bind m (fun _ => k))
  (at level 61, right associativity) : eff_scope.
Local Open Scope eff_scope.

(** [inlinedStyles = s] *)
Definition assign_inlinedStyles {Exn} (s : string) : Eff.t Exn unit :=
  fun st => (Normal tt, mkStore s (console st)).

(** reading the module variable *)
Definition read_inlinedStyles {Exn} : Eff.t Exn string :=
  fun st => (Normal (inlinedStyles st), st).

(** [console.log(e)] *)
Definition console_log {Exn} (e : Exn) : Eff.t Exn unit :=
  fun st => (Normal tt, mkStore (inlinedStyles st) (console st ++ [e])).

(** [require('!raw-loader!../public/styles.css')] *)
Definition require {Exn} (styles_css : Asset Exn) : Eff.t Exn string :=
  match styles_css with
  | Readable text => Eff.ret text
  | Unreadable e => Eff.throw e
  end.

(** [process.env.NODE_ENV === 'production'] *)
Definition is_production (NODE_ENV : string) : bool :=
  String.eqb NODE_ENV "production".

(** ** The module's top-level code (lines 8 to 17) *)
Definition module_body {Exn} (NODE_ENV : string) (styles_css : Asset Exn)
  : Eff.t Exn unit :=
  assign_inlinedStyles "" ;;
  if is_production NODE_ENV then
    Eff.try_catch
      (text <- require styles_css ;; assign_inlinedStyles text)
      (fun e => console_log e)
  else Eff.ret tt.

(** ** The elements of the template *)

Definition style_element {Fragment} (text : string) : ReactNode Fragment :=
  Element "style"
    [("id", Str "gatsby-inlined-css");
     ("dangerouslySetInnerHTML", InnerHTML text)] [].

Definition meta_charset {Fragment} : ReactNode Fragment :=
  Element "meta" [("charSet", Str "utf-8")] [].

Definition meta_viewport {Fragment} : ReactNode Fragment :=
  Element "meta"
    [("name", Str "viewport");
     ("content", Str "width=device-width, initial-scale=1.0")] [].

Definition favicon_link {Fragment} : ReactNode Fragment :=
  Element "link"
    [("rel", Str "shortcut icon");
     ("type", Str "image/png");
     ("href", Str "https://raw.githubusercontent.com/Akkatecture/Documentation/master/src/favicon.png")]
    [].

Definition docsearch_stylesheet {Fragment} : ReactNode Fragment :=
  Element "link"
    [("rel", Str "stylesheet");
     ("href", Str "https://cdn.jsdelivr.net/npm/docsearch.js@2/dist/cdn/docsearch.min.css")]
    [].

Definition docsearch_script {Fragment} : ReactNode Fragment :=
  Element "script"
    [("type", Str "text/javascript");
     ("src", Str "https://cdn.jsdelivr.net/npm/docsearch.js@2/dist/cdn/docsearch.min.js")]
    [].

Definition gatsby_div {Fragment} (html : string) : ReactNode Fragment :=
  Element "div"
    [("id", Str "___gatsby");
     ("dangerouslySetInnerHTML", InnerHTML html)] [].

(** ** [HTML.render] (lines 20 to 54) *)
Definition render {Fragment Exn} (NODE_ENV : string) (props : Props Fragment)
  : Eff.t Exn (ReactNode Fragment) :=
  styles <- read_inlinedStyles ;;
  let css :=
    if is_production NODE_ENV then style_element styles else Undefined in
  Eff.ret
    (Element "html" [("lang", Str "en")]
       [Element "head" []
          [meta_charset;
           meta_viewport;
           Supplied (headComponents props);
           favicon_link;
           docsearch_stylesheet;
           docsearch_script;
           css];
        Element "body" []
          [gatsby_div (body props);
           Supplied (postBodyComponents props)]]).

(** Loading the module and rendering one page, in one build: the build mode
    is the same at both reads of [process.env.NODE_ENV]. *)
Definition page {Fragment Exn} (NODE_ENV : string) (styles_css : Asset Exn)
  (props : Props Fragment) : Eff.t Exn (ReactNode Fragment) :=
  module_body NODE_ENV styles_css ;; render NODE_ENV props.

(** The document a build produces, started from store [st]. *)
Definition document {Fragment Exn} (NODE_ENV : string)
  (styles_css : Asset Exn) (props : Props Fragment) (st : Store Exn)
  : Completion Exn (ReactNode Fragment) :=
  fst (page NODE_ENV styles_css props st).

(** ** Looking into a tree *)

Definition Selector : Type := string -> list (string * PropValue) -> bool.

(** The elements of a tree that a selector accepts, in document order.
    Supplied fragments are leaves of the tree. *)
Fixpoint select {Fragment} (p : Selector) (n : ReactNode Fragment)
  : list (ReactNode Fragment) :=
  match n with
  | Element type props children =>
      (if p type props then [n] else []) ++ flat_map (select p) children
  | _ => []
  end.

Definition count {Fragment} (p : Selector) (n : ReactNode Fragment) : nat :=
  length (select p n).

Fixpoint attr (name : string) (props : list (string * PropValue))
  : option PropValue :=
  match props with
  | [] => None
  | (k, v) :: rest => if String.eqb k name then Some v else attr name rest
  end.

Definition tag_of {Fragment} (n : ReactNode Fragment) : option string :=
  match n with Element type _ _ => Some type | _ => None end.

Definition props_of {Fragment} (n : ReactNode Fragment)
  : list (string * PropValue) :=
  match n with Element _ props _ => props | _ => [] end.

Definition children_of {Fragment} (n : ReactNode Fragment)
  : list (ReactNode Fragment) :=
  match n with Element _ _ children => children | _ => [] end.

(** The raw HTML an element carries, if any. *)
Definition innerHTML {Fragment} (n : ReactNode Fragment) : option string :=
  match attr "dangerouslySetInnerHTML" (props_of n) with
  | Some (InnerHTML s) => Some s
  | _ => None
  end.

(** The first child element with a given tag. *)
Definition child_tagged {Fragment} (tag : string) (n : ReactNode Fragment)
  : option (ReactNode Fragment) :=
  find (fun c => match tag_of c with
                 | Some t => String.eqb t tag
                 | None => false
                 end) (children_of n).

Definition has_tag (tag : string) : Selector :=
  fun type _ => String.eqb type tag.

Definition has_attr (name value : string) : Selector :=
  fun _ props =>
    match attr name props with
    | Some (Str s) => String.eqb s value
    | _ => false
    end.

Definition both (p q : Selector) : Selector :=
  fun type props => andb (p type props) (q type props).

(** any [<style>] element *)
Definition inlined_style : Selector := has_tag "style".
(** [<link rel='shortcut icon'>] *)
Definition favicon : Selector :=
  both (has_tag "link") (has_attr "rel" "shortcut icon").
(** the search widget's stylesheet: a [<link rel='stylesheet'>] whose [href]
    is the widget's CSS *)
Definition search_stylesheet : Selector :=
  both (has_tag "link")
    (both (has_attr "rel" "stylesheet")
       (has_attr "href"
          "https://cdn.jsdelivr.net/npm/docsearch.js@2/dist/cdn/docsearch.min.css")).
(** the search widget's script: a [<script>] whose [src] is the widget's
    code *)
Definition search_script : Selector :=
  both (has_tag "script")
    (has_attr "src"
       "https://cdn.jsdelivr.net/npm/docsearch.js@2/dist/cdn/docsearch.min.js").

(** The values the framework supplied, as they sit in the tree, in document
    order. *)
Fixpoint supplied {Fragment} (n : ReactNode Fragment) : list Fragment :=
  match n with
  | Undefined => []
  | Supplied f => [f]
  | Element _ _ children => flat_map supplied children
  end.

(** The CSS text that ends up in [inlinedStyles] in a production build. *)
Definition loaded_text {Exn} (styles_css : Asset Exn) : string :=
  match styles_css with
  | Readable text => text
  | Unreadable _ => ""
  end.

(** ** One load, many pages *)

(** Running one action per element of a list, in order; a throw stops the
    run. *)
Fixpoint for_each {Exn A B} (f : A -> Eff.t Exn B) (l : list A)
  : Eff.t Exn (list B) :=
  match l with
  | [] => Eff.ret []
  | a :: rest =>
      b <- f a ;; bs <- for_each f rest ;; Eff.ret (b :: bs)
  end.

(** The module's top-level code runs once, when the module is loaded;
    [render] then runs once for each page. *)
Definition site {Fragment Exn} (NODE_ENV : string) (styles_css : Asset Exn)
  (pages : list (Props Fragment)) : Eff.t Exn (list (ReactNode Fragment)) :=
  module_body NODE_ENV styles_css ;; for_each (render NODE_ENV) pages.

(** ** More ways to look into a tree *)

(** the elements that set a given prop *)
Definition sets_prop (name : string) : Selector :=
  fun _ props =>
    match attr name props with
    | Some _ => true
    | None => false
    end.

Definition either (p q : Selector) : Selector :=
  fun type props => orb (p type props) (q type props).

(** [<meta>] and [<link>]: elements that cannot have content *)
Definition void_element : Selector :=
  either (has_tag "meta") (has_tag "link").

Definition childless {Fragment} (n : ReactNode Fragment) : bool :=
  match children_of n with
  | [] => true
  | _ :: _ => false
  end.

(** ** The whole tree, supplied fragments included *)

(** An element as a selector sees it: its type and its props. *)
Definition Tag : Type := (string * list (string * PropValue))%type.

(** All the elements of a tree in document order, those inside the supplied
    fragments included; [carried] tells which elements a fragment holds. *)
Fixpoint elements {Fragment} (carried : Fragment -> list Tag)
  (n : ReactNode Fragment) : list Tag :=
  match n with
  | Undefined => []
  | Supplied f => carried f
  | Element type props children =>
      (type, props) :: flat_map (elements carried) children
  end.

Definition matching (p : Selector) (l : list Tag) : list Tag :=
  filter (fun t => p (fst t) (snd t)) l.

(** What the hosting framework passes as [headComponents] and
    [postBodyComponents]: an array of React children.  In a child,
    [Supplied s] is a string child. *)
Definition Children : Type := list (ReactNode string).

(** A string holds no element. *)
Definition no_elements (s : string) : list Tag := [].

Definition carried_by (c : Children) : list Tag :=
  flat_map (elements no_elements) c.

(** The values a prop takes over a list of elements. *)
Definition attr_values (name : string) (l : list Tag) : list PropValue :=
  flat_map (fun t => match attr name (snd t) with
                     | Some v => [v]
                     | None => []
                     end) l.

Definition is_https (v : PropValue) : bool :=
  match v with
  | Str url => String.prefix "https://" url
  | InnerHTML _ => false
  end.

(** Reading the three fragments back out of a document. *)
Definition fragments_of {Fragment} (doc : ReactNode Fragment)
  : option (Props Fragment) :=
  match supplied doc,
        map innerHTML
          (select (both (has_tag "div") (has_attr "id" "___gatsby")) doc)
  with
  | [h; p], [Some b] => Some (mkProps h b p)
  | _, _ => None
  end.

(** A store before the module is loaded, and the props of one page, for
    concrete runs. *)
Definition fresh_store : Store string := mkStore "" [].

Definition sample_props : Props string :=
  mkProps "<title>Commands</title>" "<h1>Commands</h1>"
          "<script src='/app.js'></script>".

(** The same page with its fragments given as elements, among them a
    favicon link of the framework's own. *)
Definition sample_element_props : Props Children :=
  mkProps
    [Element "title" [] [Supplied "Commands"];
     Element "link"
       [("rel", Str "shortcut icon"); ("href", Str "/icons/icon-48x48.png")]
       []]
    "<h1>Commands</h1>"
    [Element "script" [("src", Str "/app.js")] []].

(** ** The document as text *)

(** How React's server renderer writes a tree as static markup.  React is a
    dependency of the site and not part of it; this is the part of its
    behaviour the template relies on: text children and attribute values
    are escaped, [dangerouslySetInnerHTML] is written as it is, [undefined]
    writes nothing. *)

Definition double_quote : string := String (ascii_of_nat 34) "".

Definition escape_char (c : ascii) : string :=
  if Ascii.eqb c "&" then "&amp;"
  else if Ascii.eqb c "<" then "&lt;"
  else if Ascii.eqb c ">" then "&gt;"
  else if Ascii.eqb c (ascii_of_nat 34) then "&quot;"
  else if Ascii.eqb c "'" then "&#x27;"
  else String c "".

Fixpoint escape (s : string) : string :=
  match s with
  | EmptyString => ""
  | String c rest => escape_char c ++ escape rest
  end.

(** The attributes of an opening tag, followed by [rest]. *)
Fixpoint attributes (props : list (string * PropValue)) (rest : string)
  : string :=
  match props with
  | [] => rest
  | (name, Str v) :: more =>
      " " ++ name ++ "=" ++ double_quote ++ escape v ++ double_quote
      ++ attributes more rest
  | (_, InnerHTML _) :: more => attributes more rest
  end.

Definition raw_html (props : list (string * PropValue)) : option string :=
  match attr "dangerouslySetInnerHTML" props with
  | Some (InnerHTML html) => Some html
  | _ => None
  end.

(** the tags React writes without a closing tag *)
Definition self_closing (type : string) : bool :=
  existsb (String.eqb type)
    ["area"; "base"; "br"; "col"; "embed"; "hr"; "img"; "input"; "keygen";
     "link"; "meta"; "param"; "source"; "track"; "wbr"].

(** The text of a node, followed by [rest]; [inner] writes a supplied
    fragment. *)
Fixpoint write {Fragment} (inner : Fragment -> string)
  (n : ReactNode Fragment) (rest : string) : string :=
  match n with
  | Undefined => rest
  | Supplied f => inner f ++ rest
  | Element type props children =>
      "<" ++ type ++
      attributes props
        (if self_closing type then "/>" ++ rest
         else ">" ++
              match raw_html props with
              | Some html => html ++ "</" ++ type ++ ">" ++ rest
              | None =>
                  fold_right (write inner)
                    ("</" ++ type ++ ">" ++ rest)%string children
              end)
  end.

Definition markup {Fragment} (inner : Fragment -> string)
  (n : ReactNode Fragment) : string :=
  write inner n "".

(** the text of an array of React children: strings are escaped *)
Definition children_markup (c : Children) : string :=
  fold_right (write escape) "" c.

(** Does [needle] occur in [hay]? *)
Fixpoint contains (needle hay : string) : bool :=
  if String.prefix needle hay then true
  else match hay with
       | EmptyString => false
       | String _ rest => contains needle rest
       end.

(** * Properties *)

(** ** Running the module *)

Section Runs.
Context {Fragment Exn : Type}.
Implicit Types (props : Props Fragment) (st : Store Exn)
  (styles_css : Asset Exn) (NODE_ENV : string).

Lemma is_production_true : is_production "production" = true.
Proof. reflexivity. Qed.

Lemma is_production_false NODE_ENV :
  NODE_ENV <> "production" -> is_production NODE_ENV = false.
Proof. intros H. unfold is_production. now apply String.eqb_neq. Qed.

(** The try block stores the text when the asset is readable. *)
Lemma module_body_readable text st :
  module_body "production" (Readable text) st
  = (Normal tt, mkStore text (console st)).
Proof. reflexivity. Qed.

(** The catch block logs the exception; nothing is thrown further and the
    variable keeps its initial value. *)
Lemma module_body_unreadable e st :
  module_body "production" (Unreadable e) st
  = (Normal tt, mkStore "" (console st ++ [e])).
Proof. reflexivity. Qed.

(** Outside production the asset is not touched. *)
Lemma module_body_development NODE_ENV styles_css st :
  is_production NODE_ENV = false ->
  module_body NODE_ENV styles_css st = (Normal tt, mkStore "" (console st)).
Proof.
  intros H. unfold module_body, Eff.bind. cbn. now rewrite H.
Qed.

(** The top-level code never completes abruptly. *)
Lemma module_body_normal NODE_ENV styles_css st :
  exists st', module_body NODE_ENV styles_css st = (Normal tt, st').
Proof.
  unfold module_body, Eff.bind. cbn.
  destruct (is_production NODE_ENV); [|now eexists].
  destruct styles_css; now eexists.
Qed.

(** What one build returns, for every input. *)
Lemma document_run NODE_ENV styles_css props st :
  document NODE_ENV styles_css props st =
  Normal
    (Element "html" [("lang", Str "en")]
       [Element "head" []
          [meta_charset; meta_viewport; Supplied (headComponents props);
           favicon_link; docsearch_stylesheet; docsearch_script;
           if is_production NODE_ENV
           then style_element (loaded_text styles_css) else Undefined];
        Element "body" []
          [gatsby_div (body props); Supplied (postBodyComponents props)]]).
Proof.
  unfold document, page, module_body, render, Eff.bind. cbn.
  destruct (is_production NODE_ENV); [|reflexivity].
  destruct styles_css; reflexivity.
Qed.

(** The elements of the whole tree, in document order: the template's own,
    with those the two fragments carry at the fragments' places. *)
Lemma document_elements (carried : Fragment -> list Tag)
    NODE_ENV styles_css props st :
  exists doc,
    document NODE_ENV styles_css props st = Normal doc /\
    elements carried doc
    = [("html", [("lang", Str "en")]); ("head", []);
       ("meta", props_of (@meta_charset Fragment));
       ("meta", props_of (@meta_viewport Fragment))]
      ++ carried (headComponents props)
      ++ [("link", props_of (@favicon_link Fragment));
          ("link", props_of (@docsearch_stylesheet Fragment));
          ("script", props_of (@docsearch_script Fragment))]
      ++ (if is_production NODE_ENV
          then [("style",
                 props_of (@style_element Fragment (loaded_text styles_css)))]
          else [])
      ++ [("body", []);
          ("div", props_of (@gatsby_div Fragment (body props)))]
      ++ carried (postBodyComponents props).
Proof.
  eexists. rewrite document_run. split; [reflexivity|].
  destruct (is_production NODE_ENV);
    cbn [elements flat_map app meta_charset meta_viewport favicon_link
         docsearch_stylesheet docsearch_script style_element gatsby_div
         props_of];
    rewrite ?app_nil_r, <- ?app_assoc; reflexivity.
Qed.

End Runs.

(** ** The inlined stylesheet *)

Section InlinedStyle.
Context {Fragment Exn : Type}.
Implicit Types (props : Props Fragment) (st : Store Exn)
  (styles_css : Asset Exn) (NODE_ENV : string).

(** C1. In a production build whose read of the CSS asset succeeded, the
    rendered document has exactly one inlined-style element, and the raw
    content of that element is the text that was read. *)
Theorem production_inlines_the_asset text props st :
  exists doc,
    document "production" (Readable text) props st = Normal doc /\
    count inlined_style doc = 1 /\
    select inlined_style doc = [style_element text] /\
    map innerHTML (select inlined_style doc) = [Some text].
Proof.
  eexists. rewrite document_run. split; [reflexivity|].
  now repeat split.
Qed.

(** C2, as the code has it.  In a production build whose read of the CSS
    asset failed, rendering still returns a document: the exception is
    caught and written to the console, none propagates.  The document still
    has its one inlined-style element; its content is the empty string. *)
Theorem production_unreadable_asset_renders e props st :
  exists doc st',
    page "production" (Unreadable e) props st = (Normal doc, st') /\
    console st' = console st ++ [e] /\
    inlinedStyles st' = "" /\
    count inlined_style doc = 1 /\
    select inlined_style doc = [style_element ""] /\
    map innerHTML (select inlined_style doc) = [Some ""].
Proof.
  do 2 eexists. split; [reflexivity|]. now repeat split.
Qed.

(** C3. Outside production, whatever the fragments are, the rendered
    document has no inlined-style element. *)
Theorem development_has_no_inlined_style NODE_ENV styles_css props st :
  NODE_ENV <> "production" ->
  exists doc,
    document NODE_ENV styles_css props st = Normal doc /\
    count inlined_style doc = 0 /\
    select inlined_style doc = [].
Proof.
  intros Hdev. eexists. rewrite document_run.
  rewrite (is_production_false _ Hdev).
  now repeat split.
Qed.

End InlinedStyle.

(** ** The fixed elements of the head *)

Section FixedElements.
Context {Fragment Exn : Type}.
Implicit Types (props : Props Fragment) (st : Store Exn)
  (styles_css : Asset Exn) (NODE_ENV : string).

(** Selecting from the whole tree: the template's elements are tried one by
    one, the fragments' elements stay where they are. *)
Ltac select_in_whole_tree Hel :=
  rewrite Hel; unfold matching, attr_values;
  rewrite ?filter_app, ?flat_map_app, ?length_app;
  try destruct (is_production _); cbn;
  rewrite ?app_nil_r; try reflexivity.

(** C4, as the code has it.  In every build mode and for all fragments the
    template adds exactly one favicon link, one search-widget stylesheet
    link and one search-widget script element of its own.  The fragments
    are placed without being inspected, so the rendered tree holds one of
    each more than the fragments carry: exactly one when they carry none. *)
Theorem template_adds_one_favicon_one_stylesheet_one_script
    (carried : Fragment -> list Tag) NODE_ENV styles_css props st :
  exists doc,
    document NODE_ENV styles_css props st = Normal doc /\
    matching favicon (elements carried doc)
    = matching favicon (carried (headComponents props))
      ++ [("link",
           [("rel", Str "shortcut icon"); ("type", Str "image/png");
            ("href", Str "https://raw.githubusercontent.com/Akkatecture/Documentation/master/src/favicon.png")])]
      ++ matching favicon (carried (postBodyComponents props)) /\
    matching search_stylesheet (elements carried doc)
    = matching search_stylesheet (carried (headComponents props))
      ++ [("link",
           [("rel", Str "stylesheet");
            ("href", Str "https://cdn.jsdelivr.net/npm/docsearch.js@2/dist/cdn/docsearch.min.css")])]
      ++ matching search_stylesheet (carried (postBodyComponents props)) /\
    matching search_script (elements carried doc)
    = matching search_script (carried (headComponents props))
      ++ [("script",
           [("type", Str "text/javascript");
            ("src", Str "https://cdn.jsdelivr.net/npm/docsearch.js@2/dist/cdn/docsearch.min.js")])]
      ++ matching search_script (carried (postBodyComponents props)) /\
    length (matching favicon (elements carried doc))
    = length (matching favicon (carried (headComponents props))) + 1
      + length (matching favicon (carried (postBodyComponents props))) /\
    length (matching search_stylesheet (elements carried doc))
    = length (matching search_stylesheet (carried (headComponents props)))
      + 1
      + length (matching search_stylesheet
                  (carried (postBodyComponents props))) /\
    length (matching search_script (elements carried doc))
    = length (matching search_script (carried (headComponents props))) + 1
      + length (matching search_script (carried (postBodyComponents props))).
Proof.
  destruct (document_elements carried NODE_ENV styles_css props st)
    as (doc & Hdoc & Hel).
  exists doc. split; [exact Hdoc|].
  repeat split; select_in_whole_tree Hel;
    rewrite <- Nat.add_assoc; reflexivity.
Qed.

End FixedElements.

(** ** The shape of the document *)

Section Shape.
Context {Fragment Exn : Type}.
Implicit Types (props : Props Fragment) (st : Store Exn)
  (styles_css : Asset Exn) (NODE_ENV : string).


(** C5. The rendered document is an [html] element with a head and a body.
    The head holds the charset meta, the viewport meta, the favicon link,
    the search-widget stylesheet and script, the supplied head fragment and,
    in production only, the inlined style block holding the CSS text that
    was read (in the source's order the head fragment comes third).  The
    body holds the supplied body markup as the raw HTML of its first child,
    followed by the supplied post-body fragment. *)
Theorem document_composition NODE_ENV styles_css props st :
  exists doc hd bd charset viewport icon sheet script css wrapper,
    document NODE_ENV styles_css props st = Normal doc /\
    tag_of doc = Some "html" /\
    children_of doc = [hd; bd] /\
    tag_of hd = Some "head" /\
    children_of hd
    = [charset; viewport; Supplied (headComponents props);
       icon; sheet; script; css] /\
    Permutation (children_of hd)
      [charset; viewport; icon; sheet; script;
       Supplied (headComponents props); css] /\
    (tag_of charset = Some "meta" /\
     attr "charSet" (props_of charset) = Some (Str "utf-8")) /\
    (tag_of viewport = Some "meta" /\
     attr "name" (props_of viewport) = Some (Str "viewport") /\
     attr "content" (props_of viewport)
     = Some (Str "width=device-width, initial-scale=1.0")) /\
    (tag_of icon = Some "link" /\
     attr "rel" (props_of icon) = Some (Str "shortcut icon") /\
     attr "type" (props_of icon) = Some (Str "image/png") /\
     attr "href" (props_of icon)
     = Some (Str "https://raw.githubusercontent.com/Akkatecture/Documentation/master/src/favicon.png")) /\
    (tag_of sheet = Some "link" /\
     attr "rel" (props_of sheet) = Some (Str "stylesheet") /\
     attr "href" (props_of sheet)
     = Some (Str "https://cdn.jsdelivr.net/npm/docsearch.js@2/dist/cdn/docsearch.min.css")) /\
    (tag_of script = Some "script" /\
     attr "type" (props_of script) = Some (Str "text/javascript") /\
     attr "src" (props_of script)
     = Some (Str "https://cdn.jsdelivr.net/npm/docsearch.js@2/dist/cdn/docsearch.min.js")) /\
    (if is_production NODE_ENV
     then tag_of css = Some "style" /\
          attr "id" (props_of css) = Some (Str "gatsby-inlined-css") /\
          innerHTML css = Some (loaded_text styles_css)
     else css = Undefined) /\
    tag_of bd = Some "body" /\
    children_of bd = [wrapper; Supplied (postBodyComponents props)] /\
    tag_of wrapper = Some "div" /\
    innerHTML wrapper = Some (body props) /\
    map children_of [charset; viewport; icon; sheet; script; css; wrapper]
    = [[]; []; []; []; []; []; []].
Proof.
  do 10 eexists. rewrite document_run.
  split; [reflexivity|]. split; [reflexivity|]. split; [reflexivity|].
  split; [reflexivity|]. split; [reflexivity|].
  split.
  { cbn [children_of]. do 2 apply perm_skip.
    (* move the head fragment behind the three fixed elements *)
    eapply perm_trans; [apply perm_swap|]. apply perm_skip.
    eapply perm_trans; [apply perm_swap|]. apply perm_skip.
    apply perm_swap. }
  split; [now split|]. split; [now repeat split|].
  split; [now repeat split|]. split; [now repeat split|].
  split; [now repeat split|].
  destruct (is_production NODE_ENV); now repeat split.
Qed.

(** Every fragment sits in the tree as it was given. *)
Lemma fragments_in_place NODE_ENV styles_css props st :
  exists doc hd bd,
    document NODE_ENV styles_css props st = Normal doc /\
    child_tagged "head" doc = Some hd /\
    nth_error (children_of hd) 2 = Some (Supplied (headComponents props)) /\
    child_tagged "body" doc = Some bd /\
    children_of bd
    = [gatsby_div (body props); Supplied (postBodyComponents props)] /\
    map innerHTML (select (has_tag "div") doc) = [Some (body props)] /\
    supplied doc = [headComponents props; postBodyComponents props].
Proof.
  do 3 eexists. rewrite document_run.
  split; [reflexivity|]. split; [reflexivity|]. split; [reflexivity|].
  split; [reflexivity|]. split; [reflexivity|].
  destruct (is_production NODE_ENV); split; reflexivity.
Qed.

(** C9. The body markup is never a direct child of the body element: the
    body's first child is a [div] whose id is ['___gatsby'] and whose raw
    HTML is the body markup, and that [div] is there for every body markup,
    the empty one included; the only other child is the post-body
    fragment. *)
Theorem body_markup_inside_gatsby_div NODE_ENV styles_css props st :
  exists doc bd wrapper,
    document NODE_ENV styles_css props st = Normal doc /\
    child_tagged "body" doc = Some bd /\
    children_of bd = [wrapper; Supplied (postBodyComponents props)] /\
    tag_of wrapper = Some "div" /\
    attr "id" (props_of wrapper) = Some (Str "___gatsby") /\
    innerHTML wrapper = Some (body props) /\
    children_of wrapper = [] /\
    count (both (has_tag "div") (has_attr "id" "___gatsby")) doc = 1.
Proof.
  do 3 eexists. rewrite document_run.
  split; [reflexivity|]. split; [reflexivity|]. split; [reflexivity|].
  destruct (is_production NODE_ENV); now repeat split.
Qed.

(** C10. For every build mode, asset and fragments, rendering returns a
    document (it does not throw); its root is an [html] element with
    [lang='en'], and the first child of its head is the charset meta. *)
Theorem render_total_lang_en_charset_first NODE_ENV styles_css props st :
  exists doc hd,
    document NODE_ENV styles_css props st = Normal doc /\
    tag_of doc = Some "html" /\
    attr "lang" (props_of doc) = Some (Str "en") /\
    child_tagged "head" doc = Some hd /\
    hd_error (children_of hd) = Some meta_charset /\
    attr "charSet" (props_of (@meta_charset Fragment)) = Some (Str "utf-8").
Proof.
  do 2 eexists. rewrite document_run. now repeat split.
Qed.

(** C7, as the code has it.  Two builds with the same mode and the same
    fragments produce the same document exactly when they are not
    production builds or they inlined the same CSS text (the text of the
    asset, or the empty string after a failed read).  The store the module
    was loaded in, the console and the exception of a failed read do not
    matter. *)
Theorem same_document_iff_same_inlined_text
    NODE_ENV (css1 css2 : Asset Exn) props (st1 st2 : Store Exn) :
  document NODE_ENV css1 props st1 = document NODE_ENV css2 props st2
  <-> (is_production NODE_ENV = false \/ loaded_text css1 = loaded_text css2).
Proof.
  rewrite !document_run. split.
  - intros Heq. destruct (is_production NODE_ENV); [right|now left].
    now injection Heq.
  - intros [Hdev | Htext].
    + now rewrite Hdev.
    + now rewrite Htext.
Qed.

End Shape.

(** ** Fragments given as markup strings *)

Section MarkupStrings.
Context {Exn : Type}.
Implicit Types (st : Store Exn) (styles_css : Asset Exn)
  (NODE_ENV : string).


(** C8. With three empty fragments rendering returns a document, and the
    document is an [html] element whose children are one head element and
    one body element. *)
Theorem empty_fragments_render_a_shell NODE_ENV styles_css st :
  exists doc hd bd,
    document NODE_ENV styles_css (mkProps "" "" "") st = Normal doc /\
    tag_of doc = Some "html" /\
    children_of doc = [hd; bd] /\
    tag_of hd = Some "head" /\
    tag_of bd = Some "body" /\
    count (has_tag "head") doc = 1 /\
    count (has_tag "body") doc = 1.
Proof.
  do 3 eexists. rewrite document_run.
  split; [reflexivity|]. split; [reflexivity|]. split; [reflexivity|].
  destruct (is_production NODE_ENV); now repeat split.
Qed.

End MarkupStrings.

(** ** The fragments in the text of the document *)

Section FragmentsInTheText.
Context {Exn : Type}.
Implicit Types (st : Store Exn) (styles_css : Asset Exn) (NODE_ENV : string).

Lemma string_app_assoc (a b c : string) :
  ((a ++ b) ++ c = a ++ (b ++ c))%string.
Proof. induction a as [|x a IH]; [reflexivity|]. cbn. now rewrite IH. Qed.

(** C6, as the code has it.  The text of the document is a fixed frame
    around three holes.  The body markup fills its hole as it is, raw,
    inside the wrapper [div].  The head and post-body fragments are placed
    unchanged as children, the first inside the head, the second right
    after the wrapper: given as React children their elements are written
    as markup; given as plain strings they are written as escaped text. *)
Theorem body_raw_fragments_placed_as_children NODE_ENV styles_css st :
  exists head_open head_rest wrapper_open : string,
    String.prefix "<html" head_open = true /\
    contains "<head>" head_open = true /\
    String.prefix "<div" wrapper_open = true /\
    (forall props : Props Children,
        exists doc,
          document NODE_ENV styles_css props st = Normal doc /\
          supplied doc = [headComponents props; postBodyComponents props] /\
          map innerHTML (select (has_attr "id" "___gatsby") doc)
          = [Some (body props)] /\
          markup children_markup doc
          = (head_open ++ children_markup (headComponents props)
             ++ head_rest ++ "</head><body>"
             ++ wrapper_open ++ body props ++ "</div>"
             ++ children_markup (postBodyComponents props)
             ++ "</body></html>")%string) /\
    (forall props : Props string,
        exists doc,
          document NODE_ENV styles_css props st = Normal doc /\
          supplied doc = [headComponents props; postBodyComponents props] /\
          map innerHTML (select (has_attr "id" "___gatsby") doc)
          = [Some (body props)] /\
          markup escape doc
          = (head_open ++ escape (headComponents props)
             ++ head_rest ++ "</head><body>"
             ++ wrapper_open ++ body props ++ "</div>"
             ++ escape (postBodyComponents props)
             ++ "</body></html>")%string).
Proof.
  exists ("<html" ++ attributes [("lang", Str "en")]
            (">" ++ "<head>"
             ++ write escape meta_charset (write escape meta_viewport "")))%string.
  pose (fixed := write escape favicon_link
                   (write escape docsearch_stylesheet
                      (write escape docsearch_script ""))).
  destruct (is_production NODE_ENV) eqn:Hmode.
  - exists (fixed ++ "<style"
            ++ attributes [("id", Str "gatsby-inlined-css")] ">"
            ++ loaded_text styles_css ++ "</style>")%string.
    exists ("<div" ++ attributes [("id", Str "___gatsby")] ">")%string.
    do 3 (split; [reflexivity|]).
    split; intros props; eexists; rewrite document_run, Hmode;
      (split; [reflexivity|]); (split; [reflexivity|]);
      (split; [reflexivity|]);
      rewrite !string_app_assoc; reflexivity.
  - exists fixed.
    exists ("<div" ++ attributes [("id", Str "___gatsby")] ">")%string.
    do 3 (split; [reflexivity|]).
    split; intros props; eexists; rewrite document_run, Hmode;
      (split; [reflexivity|]); (split; [reflexivity|]);
      (split; [reflexivity|]); reflexivity.
Qed.

End FragmentsInTheText.

(** ** Concrete runs *)

Example production_readable_run :
  page "production" (Readable "body{margin:0}") sample_props fresh_store
  = (Normal
       (Element "html" [("lang", Str "en")]
          [Element "head" []
             [meta_charset; meta_viewport; Supplied "<title>Commands</title>";
              favicon_link; docsearch_stylesheet; docsearch_script;
              style_element "body{margin:0}"];
           Element "body" []
             [gatsby_div "<h1>Commands</h1>";
              Supplied "<script src='/app.js'></script>"]]),
     mkStore "body{margin:0}" []).
Proof. reflexivity. Qed.

Example development_run :
  page "development" (Readable "body{margin:0}") sample_props fresh_store
  = (Normal
       (Element "html" [("lang", Str "en")]
          [Element "head" []
             [meta_charset; meta_viewport; Supplied "<title>Commands</title>";
              favicon_link; docsearch_stylesheet; docsearch_script;
              Undefined];
           Element "body" []
             [gatsby_div "<h1>Commands</h1>";
              Supplied "<script src='/app.js'></script>"]]),
     mkStore "" []).
Proof. reflexivity. Qed.

(** C2 as stated fails: after a failed read the production document still
    holds an inlined-style element. *)
Lemma unreadable_asset_still_has_style_element :
  exists doc,
    page "production" (Unreadable "Cannot find module") sample_props
         fresh_store
    = (Normal doc, mkStore "" ["Cannot find module"]) /\
    select inlined_style doc = [style_element ""] /\
    count inlined_style doc <> 0.
Proof.
  eexists. split; [reflexivity|]. split; [reflexivity|]. discriminate.
Qed.

(** C7 as stated fails: two production builds with the same fragments and
    different stylesheets produce different documents. *)
Lemma same_mode_and_fragments_different_documents :
  exists d1 d2,
    document "production" (Readable "body{margin:0}") sample_props fresh_store
    = Normal d1 /\
    document "production" (Readable "body{margin:8px}") sample_props
             fresh_store
    = Normal d2 /\
    d1 <> d2.
Proof.
  do 2 eexists. split; [reflexivity|]. split; [reflexivity|]. discriminate.
Qed.

(** C4 as stated fails: with a favicon link among the head components the
    framework passes, the rendered tree holds two favicon links. *)
Lemma supplied_favicon_makes_two_favicon_links :
  exists doc,
    document "production" (Readable "body{margin:0}") sample_element_props
             fresh_store = Normal doc /\
    matching favicon (elements carried_by doc)
    = [("link",
        [("rel", Str "shortcut icon"); ("href", Str "/icons/icon-48x48.png")]);
       ("link",
        [("rel", Str "shortcut icon"); ("type", Str "image/png");
         ("href", Str "https://raw.githubusercontent.com/Akkatecture/Documentation/master/src/favicon.png")])] /\
    length (matching favicon (elements carried_by doc)) = 2.
Proof.
  eexists. split; [reflexivity|]. split; reflexivity.
Qed.

(** C6 as stated fails: a head or post-body fragment given as a markup
    string is written escaped, so it is not in the text of the document as
    it was given; the body markup is. *)
Lemma string_fragments_are_written_escaped :
  exists doc,
    document "production" (Readable "body{margin:0}") sample_props
             fresh_store = Normal doc /\
    contains "<title>Commands</title>" (markup escape doc) = false /\
    contains "&lt;title&gt;Commands&lt;/title&gt;" (markup escape doc)
    = true /\
    contains "<script src='/app.js'></script>" (markup escape doc) = false /\
    contains "<h1>Commands</h1>" (markup escape doc) = true.
Proof.
  eexists. split; [reflexivity|]. now vm_compute.
Qed.

Lemma development_has_no_inlined_style_witness :
  "development" <> "production" /\
  exists doc,
    document "development" (Readable "body{margin:0}") sample_props
             fresh_store = Normal doc /\
    count inlined_style doc = 0 /\
    select inlined_style doc = [].
Proof.
  split; [discriminate|].
  apply development_has_no_inlined_style. discriminate.
Defined.


(** * Further properties of the module *)

(** ** Loading *)

Section Loading.
Context {Fragment Exn : Type}.
Implicit Types (props : Props Fragment) (st : Store Exn)
  (styles_css : Asset Exn) (NODE_ENV : string).

(** X1. Loading the module always completes normally.  It writes to the
    console only in a production build whose asset is unreadable, and then
    exactly the exception that was raised; outside production the asset is
    not required at all, so an unreadable asset leaves no trace.  The
    variable ends as the asset's text in a production build with a readable
    asset and as the empty string in every other case. *)
Theorem module_body_effects NODE_ENV styles_css st :
  exists st',
    module_body NODE_ENV styles_css st = (Normal tt, st') /\
    console st'
    = console st ++
      (if is_production NODE_ENV
       then match styles_css with
            | Readable _ => []
            | Unreadable e => [e]
            end
       else []) /\
    inlinedStyles st'
    = (if is_production NODE_ENV then loaded_text styles_css else "").
Proof.
  unfold module_body, Eff.bind. cbn.
  destruct (is_production NODE_ENV).
  - destruct styles_css as [text | e]; eexists; cbn;
      (split; [reflexivity|]); rewrite ?app_nil_r; split; reflexivity.
  - eexists. split; [reflexivity|]. cbn. rewrite app_nil_r. now split.
Qed.

(** [render] returns normally and leaves the store as it found it. *)
Lemma render_keeps_store NODE_ENV props st :
  exists doc, render NODE_ENV props st = (Normal doc, st).
Proof. eexists. reflexivity. Qed.

(** Rendering a list of pages from a store: no page changes the store, and
    each document is the one [render] returns for that page from the same
    store. *)
Lemma for_each_render NODE_ENV (pages : list (Props Fragment)) st :
  exists docs,
    for_each (render NODE_ENV) pages st = (Normal docs, st) /\
    map (@Normal Exn _) docs
    = map (fun props => fst (render NODE_ENV props st)) pages.
Proof.
  induction pages as [|props rest IH].
  - exists []. split; reflexivity.
  - destruct IH as (docs & Hrun & Hdocs).
    destruct (render_keeps_store NODE_ENV props st) as (doc & Hdoc).
    exists (doc :: docs). split.
    + cbn [for_each]. unfold Eff.bind at 1. rewrite Hdoc.
      unfold Eff.bind at 1. rewrite Hrun. reflexivity.
    + cbn [map]. rewrite Hdoc, Hdocs. reflexivity.
Qed.

(** X2. After one load, rendering any number of pages returns one document
    per page, in order, each equal to the document a build of that page
    alone produces; the renders leave the store exactly as the load left it,
    so a failed read is logged once, however many pages are rendered. *)
Theorem one_load_many_pages NODE_ENV styles_css
    (pages : list (Props Fragment)) st :
  exists docs,
    site NODE_ENV styles_css pages st
    = (Normal docs, snd (module_body NODE_ENV styles_css st)) /\
    length docs = length pages /\
    map (@Normal Exn _) docs
    = map (fun props => document NODE_ENV styles_css props st) pages.
Proof.
  destruct (module_body_normal NODE_ENV styles_css st) as (st' & Hload).
  destruct (for_each_render NODE_ENV pages st') as (docs & Hrun & Hdocs).
  exists docs. split; [|split].
  - unfold site, Eff.bind. rewrite Hload. exact Hrun.
  - rewrite <- (length_map (@Normal Exn _) docs), Hdocs. apply length_map.
  - rewrite Hdocs. apply map_ext. intros props.
    unfold document, page, Eff.bind at 1. now rewrite Hload.
Qed.

(** X3. The two tests of the build mode are independent.  Whether the
    document has the inlined-style element follows the mode [render] sees;
    what the element holds follows the mode the module was loaded in: the
    asset's text after a production load with a readable asset, the empty
    string otherwise. *)
Theorem style_follows_render_mode_text_follows_load_mode
    (load_ENV render_ENV : string) styles_css props st :
  exists doc,
    fst ((module_body load_ENV styles_css ;; render render_ENV props) st)
    = Normal doc /\
    select inlined_style doc
    = (if is_production render_ENV
       then [style_element
               (if is_production load_ENV
                then loaded_text styles_css else "")]
       else []).
Proof.
  unfold module_body, render, Eff.bind. cbn.
  destruct (is_production load_ENV), (is_production render_ENV);
    try destruct styles_css; eexists; split; reflexivity.
Qed.

(** X4. In the document a failed read cannot be told from an empty
    stylesheet: the two production builds produce the same document, and
    differ only in the console. *)
Theorem failed_read_renders_as_empty_stylesheet e props st :
  document "production" (Unreadable e) props st
  = document "production" (Readable "") props st /\
  console (snd (page "production" (Unreadable e) props st))
  = console (snd (page "production" (Readable "") props st)) ++ [e].
Proof. split; reflexivity. Qed.

End Loading.

(** ** What the document holds, whatever it is given *)

Section Contents.
Context {Fragment Exn : Type}.
Implicit Types (props : Props Fragment) (st : Store Exn)
  (styles_css : Asset Exn) (NODE_ENV : string).




(** X5. Of the template's own elements exactly two take raw HTML: the
    style element with the inlined CSS text (production only) and the
    wrapper [div] with the body markup.  Every other element of the rendered
    tree that takes raw HTML lies inside a supplied fragment; the head and
    post-body fragments themselves are placed as children, never through
    [dangerouslySetInnerHTML].  The template's raw-HTML elements have no
    children, and its [meta] and [link] elements have neither children nor
    raw HTML. *)
Theorem raw_html_only_in_style_and_wrapper
    (carried : Fragment -> list Tag) NODE_ENV styles_css props st :
  exists doc,
    document NODE_ENV styles_css props st = Normal doc /\
    matching (sets_prop "dangerouslySetInnerHTML") (elements carried doc)
    = matching (sets_prop "dangerouslySetInnerHTML")
        (carried (headComponents props))
      ++ (if is_production NODE_ENV
          then [("style",
                 [("id", Str "gatsby-inlined-css");
                  ("dangerouslySetInnerHTML",
                   InnerHTML (loaded_text styles_css))])]
          else [])
      ++ [("div",
           [("id", Str "___gatsby");
            ("dangerouslySetInnerHTML", InnerHTML (body props))])]
      ++ matching (sets_prop "dangerouslySetInnerHTML")
           (carried (postBodyComponents props)) /\
    forallb childless (select (sets_prop "dangerouslySetInnerHTML") doc)
    = true /\
    forallb childless (select void_element doc) = true /\
    select (both void_element (sets_prop "dangerouslySetInnerHTML")) doc
    = [].
Proof.
  destruct (document_elements carried NODE_ENV styles_css props st)
    as (doc & Hdoc & Hel).
  exists doc. split; [exact Hdoc|]. split.
  - rewrite Hel. unfold matching. rewrite !filter_app.
    destruct (is_production NODE_ENV); reflexivity.
  - rewrite document_run in Hdoc. injection Hdoc as <-.
    destruct (is_production NODE_ENV); now repeat split.
Qed.

(** X7. In every mode the template adds exactly two [href]s and one [src]
    of its own to the rendered tree: the favicon, the search widget's
    stylesheet and the search widget's script, each an https address that
    does not depend on the props or the asset.  Every other address in the
    tree lies inside a supplied fragment. *)
Theorem template_adds_three_https_addresses
    (carried : Fragment -> list Tag) NODE_ENV styles_css props st :
  exists doc icon sheet script,
    document NODE_ENV styles_css props st = Normal doc /\
    attr_values "href" (elements carried doc)
    = attr_values "href" (carried (headComponents props))
      ++ [icon; sheet]
      ++ attr_values "href" (carried (postBodyComponents props)) /\
    attr_values "src" (elements carried doc)
    = attr_values "src" (carried (headComponents props))
      ++ [script]
      ++ attr_values "src" (carried (postBodyComponents props)) /\
    icon = Str "https://raw.githubusercontent.com/Akkatecture/Documentation/master/src/favicon.png" /\
    sheet = Str "https://cdn.jsdelivr.net/npm/docsearch.js@2/dist/cdn/docsearch.min.css" /\
    script = Str "https://cdn.jsdelivr.net/npm/docsearch.js@2/dist/cdn/docsearch.min.js" /\
    forallb is_https [icon; sheet; script] = true.
Proof.
  destruct (document_elements carried NODE_ENV styles_css props st)
    as (doc & Hdoc & Hel).
  exists doc. do 3 eexists. split; [exact Hdoc|].
  rewrite Hel. unfold attr_values. rewrite !flat_map_app.
  destruct (is_production NODE_ENV); now repeat split.
Qed.

(** X8. The three fragments can be read back from the document, so two
    pages with different fragments never render to the same document. *)
Theorem fragments_read_back NODE_ENV styles_css props st :
  exists doc,
    document NODE_ENV styles_css props st = Normal doc /\
    fragments_of doc = Some props /\
    (forall props',
        document NODE_ENV styles_css props' st = Normal doc ->
        props' = props).
Proof.
  assert (Hback : forall (q : Props Fragment) doc,
             document NODE_ENV styles_css q st = Normal doc ->
             fragments_of doc = Some q).
  { intros q doc. rewrite document_run. intros Heq.
    injection Heq as <-. destruct q as [h b p].
    destruct (is_production NODE_ENV); reflexivity. }
  eexists. split; [apply document_run|]. split.
  - apply Hback, document_run.
  - intros props' Hsame. apply Hback in Hsame.
    rewrite (Hback props _ (document_run _ _ _ _)) in Hsame.
    now injection Hsame.
Qed.

End Contents.
